(** * The agentic feasibility orchestrator: model and properties

    A shallow embedding of [agentic_system/orchestrator.py],
    [agentic_system/agents/research_agent.py],
    [agentic_system/agents/technology_agent.py] and the helpers of
    [agentic_system/agents/base_agent.py] they call.

    Modelling conventions.
    - A Python [float] is IEEE 754 binary64.  A finite binary64 number is
      represented by the rational it denotes ([Q]).  The arithmetic of
      validation and synthesis ([Float64.add], [Float64.mul], [Float64.div])
      rounds every result to the nearest number with a 53-bit significand,
      ties to even, with gradual underflow below 2^-1022; [sum] adds from
      left to right, starting from 0, one rounding per addition (CPython up
      to 3.11; later versions compensate the rounding errors of [sum], which
      is not modelled).  Comparisons are exact.  A number held in a field or
      written as a literal (a threshold, a weight, a score read from text)
      stands for the binary64 number nearest to it and is rounded where the
      arithmetic, or the comparison with the threshold, uses it.  Overflow
      to [inf] is not represented: a magnitude from 2^1024 on keeps its
      rounding to 53 bits.  The confidence formulas of the two agents are
      evaluated over exact rationals.  [Binary64] evaluates the expressions
      of validation and synthesis a second time with the kernel's primitive
      floats.
    - Text is a [string] of 8-bit characters read as ASCII.  [lower] maps
      [A-Z] to [a-z] and leaves every other character alone; the bullet
      U+2022 that some helpers also accept is not an ASCII character and so
      never occurs.
    - The reasoning provider and the retrieval provider are external: the
      answer to the n-th reasoning call is [llm n], the answer to the n-th
      retrieval call for query [q] is [web n q].  Prompts are built from
      fixed text and are only ever handed to the provider, so they are not
      represented: quantifying over [llm] covers every provider.
    - Object state (the orchestrator, its research agent, the providers'
      call logs) lives in one record that the methods thread through a
      state-and-exception monad.  [history] records every value assigned to
      [current_phase], oldest first.  The agents' [status], [current_task]
      and [memory] (a log of past actions) are written but never read by a
      decision; they are left out, as are console messages. *)

From Stdlib Require Import Ascii String QArith Qminmax Qabs Qpower Lqa Lia.
From Stdlib Require Import PrimFloat SpecFloat FloatOps.
From stdpp Require Import gmap strings list.

Open Scope string_scope.
Open Scope list_scope.

Set Warnings "-inexact-float".

(** ** Text helpers (Python [str] methods and the regular expressions) *)

Module Text.

Definition code (c : ascii) : nat := nat_of_ascii c.

Definition isupper (c : ascii) : bool :=
  (65 <=? code c)%nat && (code c <=? 90)%nat.

Definition isdigit (c : ascii) : bool :=
  (48 <=? code c)%nat && (code c <=? 57)%nat.

(** [str.isspace] on one ASCII character; also the class [\s]. *)
Definition isspace (c : ascii) : bool :=
  ((9 <=? code c)%nat && (code c <=? 13)%nat)
  || ((28 <=? code c)%nat && (code c <=? 32)%nat).

Definition lower_char (c : ascii) : ascii :=
  if isupper c then ascii_of_nat (code c + 32) else c.

Fixpoint lower (s : string) : string :=
  match s with
  | EmptyString => EmptyString
  | String c s' => String (lower_char c) (lower s')
  end.

(** [s.startswith(p)] *)
Fixpoint startswith (p s : string) : bool :=
  match p, s with
  | EmptyString, _ => true
  | String a p', String b s' => if Ascii.eqb a b then startswith p' s' else false
  | String _ _, EmptyString => false
  end.

(** [needle in hay] *)
Fixpoint contains (needle hay : string) : bool :=
  startswith needle hay
  || match hay with
     | EmptyString => false
     | String _ hay' => contains needle hay'
     end.

Fixpoint drop (n : nat) (s : string) : string :=
  match n, s with
  | O, _ => s
  | S n', String _ s' => drop n' s'
  | S _, EmptyString => EmptyString
  end.

(** [s[:n]] *)
Fixpoint take (n : nat) (s : string) : string :=
  match n, s with
  | S n', String c s' => String c (take n' s')
  | _, _ => EmptyString
  end.

(** Longest prefix whose characters satisfy [p], and the rest. *)
Fixpoint span (p : ascii -> bool) (s : string) : string * string :=
  match s with
  | String c s' =>
      if p c then let '(a, b) := span p s' in (String c a, b)
      else (EmptyString, s)
  | EmptyString => (EmptyString, EmptyString)
  end.

Fixpoint any_char (p : ascii -> bool) (s : string) : bool :=
  match s with
  | EmptyString => false
  | String c s' => p c || any_char p s'
  end.

Definition mem_char (c : ascii) (chars : string) : bool :=
  any_char (Ascii.eqb c) chars.

(** [s.lstrip(chars)] and [s.lstrip()] *)
Definition lstrip_chars (chars s : string) : string :=
  snd (span (fun c => mem_char c chars) s).

Definition lstrip (s : string) : string := snd (span isspace s).

Fixpoint rev_string (acc s : string) : string :=
  match s with
  | EmptyString => acc
  | String c s' => rev_string (String c acc) s'
  end.

Definition rstrip (s : string) : string :=
  rev_string EmptyString (lstrip (rev_string EmptyString s)).

(** [s.strip()] *)
Definition strip (s : string) : string := rstrip (lstrip s).

(** [s.split('\n')]: never empty, one more piece than newlines. *)
Fixpoint split_lines (s : string) : list string :=
  match s with
  | EmptyString => [EmptyString]
  | String c s' =>
      if Ascii.eqb c "010"%char then EmptyString :: split_lines s'
      else match split_lines s' with
           | l :: ls => String c l :: ls
           | [] => [String c EmptyString]
           end
  end.

(** [float(digits)] for a run of decimal digits. *)
Fixpoint digits_value (acc : Z) (s : string) : Z :=
  match s with
  | EmptyString => acc
  | String c s' => digits_value (10 * acc + (Z.of_nat (code c) - 48)) s'
  end.

Definition float_of_digits (ds : string) : Q := inject_Z (digits_value 0 ds).

(** [re.search]: the leftmost position at which the anchored matcher
    succeeds. *)
Fixpoint search {A} (m : string -> option A) (s : string) : option A :=
  match m s with
  | Some x => Some x
  | None =>
      match s with
      | EmptyString => None
      | String _ s' => search m s'
      end
  end.

Definition is_sep (c : ascii) : bool := Ascii.eqb c ":"%char || isspace c.

(** Anchored match of [kw[:\s]+(\d+)], or of [kw[:\s]+(\d+)%] when [pct].
    The classes [[:\s]] and [\d] are disjoint, so the greedy runs are the
    only candidates. *)
Definition match_kw_num (kw : string) (pct : bool) (s : string) : option string :=
  if startswith kw s then
    let '(seps, r1) := span is_sep (drop (String.length kw) s) in
    let '(ds, r2) := span isdigit r1 in
    match seps, ds with
    | String _ _, String _ _ =>
        if pct then (if startswith "%" r2 then Some ds else None) else Some ds
    | _, _ => None
    end
  else None.

(** Anchored match of [(\d+)/100]. *)
Definition match_num_over_100 (s : string) : option string :=
  let '(ds, r) := span isdigit s in
  match ds with
  | String _ _ => if startswith "/100" r then Some ds else None
  | EmptyString => None
  end.

(** [re.search(r'score[:\s]+(\d+)', s)] *)
Definition search_score (s : string) : option string :=
  search (match_kw_num "score" false) s.

(** [re.search(r'feasibility[:\s]+(\d+)%', s)] *)
Definition search_feasibility_pct (s : string) : option string :=
  search (match_kw_num "feasibility" true) s.

(** [re.search(r'(\d+)/100', s)] *)
Definition search_over_100 (s : string) : option string :=
  search match_num_over_100 s.

End Text.

(** ** Numbers *)

(** [x < y] on floats; [x > y] is [Qltb y x], [x >= y] is [Qle_bool y x]. *)
Definition Qltb (x y : Q) : bool := negb (Qle_bool y x).

(** *** Binary64 arithmetic on the rationals *)

Module Float64.

(** [floor (log2 (n / d))], for positive [n] and [d]. *)
Definition ilog2 (n d : Z) : Z :=
  let e := (Z.log2 n - Z.log2 d)%Z in
  if (n * 2 ^ Z.log2 d <? d * 2 ^ Z.log2 n)%Z then (e - 1)%Z else e.

(** The integer nearest to [n / d]; of two equally near, the even one. *)
Definition div_half_even (n d : Z) : Z :=
  let q := (n / d)%Z in
  match (2 * (n mod d) ?= d)%Z with
  | Lt => q
  | Gt => (q + 1)%Z
  | Eq => if Z.even q then q else (q + 1)%Z
  end.

(** The binary64 number nearest to [n / d], for positive [n] and [d]: a
    multiple [m * 2 ^ (- p)] with [m < 2 ^ 53], where [p] is capped at 1074
    (the subnormal numbers). *)
Definition round_pos (n d : Z) : Q :=
  let p := Z.min (52 - ilog2 n d) 1074 in
  let m := div_half_even (n * 2 ^ Z.max p 0) (d * 2 ^ Z.max (- p) 0) in
  Qred (inject_Z m * 2 ^ (- p)).

(** The binary64 number nearest to [q], in lowest terms. *)
Definition round (q : Q) : Q :=
  let q' := Qred q in
  match Qnum q' with
  | Z0 => 0
  | Zpos n => round_pos (Zpos n) (Zpos (Qden q'))
  | Zneg n => - round_pos (Zpos n) (Zpos (Qden q'))
  end.

(** [x + y], [x * y] and [x / y] on floats. *)
Definition add (x y : Q) : Q := round (round x + round y).
Definition mul (x y : Q) : Q := round (round x * round y).
Definition div (x y : Q) : Q := round (round x / round y).


End Float64.

(** [sum(xs)] on floats: left to right, starting from 0. *)
Definition py_sum (xs : list Q) : Q := fold_left Float64.add xs 0%Q.

(** ** Message models ([models/messages.py]) *)

Inductive AnalysisPhase :=
| PLANNING | INFORMATION_GATHERING | PARALLEL_ANALYSIS
| VALIDATION | REFINEMENT | SYNTHESIS | COMPLETE.

Inductive ConfidenceLevel := VERY_LOW | LOW | MEDIUM | HIGH | VERY_HIGH.

#[global] Instance AnalysisPhase_eq_dec : EqDecision AnalysisPhase.
Proof. solve_decision. Defined.

#[global] Instance ConfidenceLevel_eq_dec : EqDecision ConfidenceLevel.
Proof. solve_decision. Defined.

(** One record returned by the retrieval provider. *)
Record SearchResult := {
  title : string;
  url : string;
  snippet : string;
  source : string
}.

Record ProjectAnalysisRequest := {
  project_description : string;
  project_name : string;
  requester_address : string;
  analysis_depth : string
}.

Record AnalysisStrategy := {
  needs_external_research : bool;
  research_queries : list string;
  priority_dimensions : list string;
  estimated_time : string
}.

Record OrchestratorDecision := {
  od_phase : AnalysisPhase;
  od_action : string;
  od_reasoning : string;
  od_confidence : Q
}.

Record ResearchRequest := {
  queries : list string;
  information_type : string;
  context : string;
  priority : string
}.

Record ResearchFindings := {
  rf_query : string;
  rf_findings : list SearchResult;
  rf_sources : list string;
  rf_confidence : Q;
  relevance_score : Q;
  agent_reasoning : string
}.

(** The list-valued report fields of [DimensionAnalysis] (key findings,
    risks, opportunities, ...) are copied to the report and never read by a
    decision; they are left out. *)
Record DimensionAnalysis := {
  dimension : string;
  score : Q;
  confidence : ConfidenceLevel;
  reasoning : string
}.

(** The dict returned by [_validate_analyses]. *)
Record Validation := {
  v_confidence : Q;
  is_consistent : bool;
  consistency_check : string;
  needs_refinement : bool
}.

Record FinalDecision := {
  overall_feasibility : string;
  overall_score : Q;
  fd_confidence : ConfidenceLevel;
  decision_reasoning : string;
  recommendation : string;
  dimension_scores : list (string * Q);
  analysis_quality : string;
  limited_to_iterations : Z
}.

(** ** Configuration ([config.py]) *)

Module Config.
Definition CONFIDENCE_THRESHOLD : Q := 0.75.
Definition MAX_ITERATIONS : Z := 3.
End Config.

(** ** Objects and providers *)

Record System := {
  (* providers *)
  llm : nat -> string;
  web : nat -> string -> list SearchResult;
  llm_calls : nat;
  searches : list string;
  (* ResearchAgent *)
  findings_cache : gmap string ResearchFindings;
  (* OrchestratorAgent *)
  current_phase : AnalysisPhase;
  iteration : Z;
  confidence_threshold : Q;
  max_iterations : Z;
  decisions : list OrchestratorDecision;
  all_analyses : list DimensionAnalysis;
  (* every value assigned to [current_phase] *)
  history : list AnalysisPhase
}.

(** [OrchestratorAgent()] attached to the given providers. *)
Definition OrchestratorAgent_init
    (llm0 : nat -> string) (web0 : nat -> string -> list SearchResult) : System :=
  {| llm := llm0; web := web0; llm_calls := 0; searches := [];
     findings_cache := ∅;
     current_phase := PLANNING;
     iteration := 0;
     confidence_threshold := Config.CONFIDENCE_THRESHOLD;
     max_iterations := Config.MAX_ITERATIONS;
     decisions := []; all_analyses := [];
     history := [PLANNING] |}.

Definition with_llm_calls (n : nat) (s : System) : System :=
  {| llm := llm s; web := web s; llm_calls := n; searches := searches s;
     findings_cache := findings_cache s; current_phase := current_phase s;
     iteration := iteration s; confidence_threshold := confidence_threshold s;
     max_iterations := max_iterations s; decisions := decisions s;
     all_analyses := all_analyses s; history := history s |}.

Definition with_searches (l : list string) (s : System) : System :=
  {| llm := llm s; web := web s; llm_calls := llm_calls s; searches := l;
     findings_cache := findings_cache s; current_phase := current_phase s;
     iteration := iteration s; confidence_threshold := confidence_threshold s;
     max_iterations := max_iterations s; decisions := decisions s;
     all_analyses := all_analyses s; history := history s |}.

Definition with_findings_cache (c : gmap string ResearchFindings) (s : System) : System :=
  {| llm := llm s; web := web s; llm_calls := llm_calls s; searches := searches s;
     findings_cache := c; current_phase := current_phase s;
     iteration := iteration s; confidence_threshold := confidence_threshold s;
     max_iterations := max_iterations s; decisions := decisions s;
     all_analyses := all_analyses s; history := history s |}.

Definition with_current_phase (p : AnalysisPhase) (s : System) : System :=
  {| llm := llm s; web := web s; llm_calls := llm_calls s; searches := searches s;
     findings_cache := findings_cache s; current_phase := p;
     iteration := iteration s; confidence_threshold := confidence_threshold s;
     max_iterations := max_iterations s; decisions := decisions s;
     all_analyses := all_analyses s; history := history s ++ [p] |}.

Definition with_iteration (i : Z) (s : System) : System :=
  {| llm := llm s; web := web s; llm_calls := llm_calls s; searches := searches s;
     findings_cache := findings_cache s; current_phase := current_phase s;
     iteration := i; confidence_threshold := confidence_threshold s;
     max_iterations := max_iterations s; decisions := decisions s;
     all_analyses := all_analyses s; history := history s |}.

Definition with_decisions (d : list OrchestratorDecision) (s : System) : System :=
  {| llm := llm s; web := web s; llm_calls := llm_calls s; searches := searches s;
     findings_cache := findings_cache s; current_phase := current_phase s;
     iteration := iteration s; confidence_threshold := confidence_threshold s;
     max_iterations := max_iterations s; decisions := d;
     all_analyses := all_analyses s; history := history s |}.

Definition with_all_analyses (a : list DimensionAnalysis) (s : System) : System :=
  {| llm := llm s; web := web s; llm_calls := llm_calls s; searches := searches s;
     findings_cache := findings_cache s; current_phase := current_phase s;
     iteration := iteration s; confidence_threshold := confidence_threshold s;
     max_iterations := max_iterations s; decisions := decisions s;
     all_analyses := a; history := history s |}.

(** ** The monad of methods: state and Python exceptions *)

Inductive exn := ZeroDivisionError.

Definition exn_name (e : exn) : string :=
  match e with
  | ZeroDivisionError => "ZeroDivisionError"
  end.

Inductive outcome (A : Type) :=
| Returns (a : A) (s : System)
| Raises (e : exn).
Arguments Returns {A} a s.
Arguments Raises {A} e.

Definition M (A : Type) : Type := System -> outcome A.

Definition ret {A} (a : A) : M A := fun s => Returns a s.

Definition bind {A B} (c : M A) (k : A -> M B) : M B :=
  fun s => match c s with
           | Returns a s' => k a s'
           | Raises e => Raises e
           end.

Definition raise {A} (e : exn) : M A := fun _ => Raises e.

Definition get : M System := fun s => Returns s s.

Definition modify (f : System -> System) : M unit := fun s => Returns tt (f s).

Notation "'do' x <- c ; k" := (bind c (fun x => k))
  (at level 10, x name, c at level 100, k at level 200).
Notation "c ;; k" := (bind c (fun _ => k))
  (at level 100, k at level 200, right associativity).

(** [x / n] with [x] a float (or the [int] 0 of an empty [sum]) and [n] an
    [int]: raises on [n = 0]. *)
Definition truediv (x : Q) (n : Z) : M Q :=
  if Z.eqb n 0 then raise ZeroDivisionError else ret (Float64.div x (inject_Z n)).

(** ** Tools ([tools/llm_tool.py], [tools/web_search_tool.py]) *)

(** [llm_tool.reason(prompt, ...)] *)
Definition reason : M string :=
  fun s => Returns (llm s (llm_calls s)) (with_llm_calls (S (llm_calls s)) s).

(** [llm_tool.synthesize_insights(insights)] is one [reason] call. *)
Definition synthesize_insights : M string := reason.

(** [web_search_tool.search(query, num_results=5)] *)
Definition web_search (query : string) : M (list SearchResult) :=
  fun s => Returns (web s (length (searches s)) query)
                   (with_searches (searches s ++ [query]) s).

(** ** [BaseAgenticAgent] helpers ([agents/base_agent.py]) *)

(** [_extract_score(text)] *)
Definition _extract_score (text : string) : Q :=
  match Text.search_over_100 text with
  | Some ds => (Text.float_of_digits ds / 100)%Q
  | None =>
      match Text.search_score (Text.lower text) with
      | Some ds => (Text.float_of_digits ds / 100)%Q
      | None => 0.70%Q
      end
  end.

Definition bullet_chars : string := "-*0123456789. ".

(** The test of [identify_information_gaps] on one line:
    [line.strip().startswith(('-', '*')) or
     any(c.isdigit() and '.' in line for c in line[:3])]. *)
Definition is_list_item (line : string) : bool :=
  Text.startswith "-" (Text.strip line)
  || Text.startswith "*" (Text.strip line)
  || Text.any_char (fun c => Text.isdigit c && Text.contains "." line) (Text.take 3 line).

Definition nonempty (s : string) : bool :=
  match s with EmptyString => false | String _ _ => true end.

(** The parsing half of [identify_information_gaps]. *)
Definition parse_gaps (response : string) : list string :=
  let gaps :=
    map (fun line => Text.lstrip_chars bullet_chars (Text.strip line))
        (filter (fun line => is_list_item line = true) (Text.split_lines response)) in
  filter (fun g => nonempty g = true) gaps.

(** [identify_information_gaps(analysis, context)] *)
Definition identify_information_gaps : M (list string) :=
  do response <- reason;
  ret (parse_gaps response).

(** The dict returned by [reflect_on_work]. *)
Record Reflection := {
  reflection : string;
  quality_score : Q;
  reflection_needs_refinement : bool
}.

(** [reflect_on_work(work_done)] *)
Definition reflect_on_work : M Reflection :=
  do r <- reason;
  ret {| reflection := r;
         quality_score := _extract_score r;
         reflection_needs_refinement :=
           Text.contains "refin" (Text.lower r) || Text.contains "improv" (Text.lower r) |}.

(** ** [ResearchAgent] ([agents/research_agent.py]) *)

Module ResearchAgent.

(** [_decide_search_strategy]: one reasoning call; the dict it builds is
    not read by the caller. *)
Definition _decide_search_strategy : M string := reason.

(** [_analyze_search_results] *)
Definition _analyze_search_results : M string := reason.

(** [_assess_relevance(results, context)] *)
Definition _assess_relevance (results : list SearchResult) : M Q :=
  match results with
  | [] => ret 0%Q
  | _ :: _ =>
      do response <- reason;
      ret (_extract_score response)
  end.

(** [len(set(r['source'] for r in results))] *)
Definition num_sources (results : list SearchResult) : nat :=
  size (list_to_set (map source results) : gset string).

Definition source_confidence (results : list SearchResult) : Q :=
  Qmin (inject_Z (Z.of_nat (num_sources results)) * 0.15)%Q 0.35%Q.

Definition analysis_confidence (analysis : string) : Q :=
  if Text.contains "unclear" (Text.lower analysis)
     || Text.contains "missing" (Text.lower analysis) then 0.4%Q
  else if Text.contains "consistent" (Text.lower analysis)
          || Text.contains "clear" (Text.lower analysis) then 0.75%Q
  else 0.6%Q.

(** [_assess_research_confidence(results, analysis)] *)
Definition _assess_research_confidence
    (results : list SearchResult) (analysis : string) : Q :=
  match results with
  | [] => 0.1%Q
  | _ :: _ =>
      let total_confidence :=
        ((source_confidence results + analysis_confidence analysis) / 2 + 0.2)%Q in
      Qmin total_confidence 0.95%Q
  end.

(** [_research_query(query, info_type, context)] *)
Definition _research_query (query info_type ctx : string) : M ResearchFindings :=
  do _strategy <- _decide_search_strategy;
  do search_results <- web_search query;
  do analysis <- _analyze_search_results;
  do relevance <- _assess_relevance search_results;
  let confidence := _assess_research_confidence search_results analysis in
  ret {| rf_query := query;
         rf_findings := search_results;
         rf_sources := map source search_results;
         rf_confidence := confidence;
         relevance_score := relevance;
         agent_reasoning := analysis |}.

(** The [for query in request.queries] loop of [analyze]. *)
Fixpoint analyze_loop (qs : list string) (info_type ctx : string)
    (all_findings : list ResearchFindings) : M (list ResearchFindings) :=
  match qs with
  | [] => ret all_findings
  | query :: qs' =>
      do s <- get;
      match findings_cache s !! query with
      | Some cached => analyze_loop qs' info_type ctx (all_findings ++ [cached])
      | None =>
          do findings <- _research_query query info_type ctx;
          modify (fun s => with_findings_cache (<[query := findings]> (findings_cache s)) s);;
          analyze_loop qs' info_type ctx (all_findings ++ [findings])
      end
  end.

(** [analyze(request)] *)
Definition analyze (request : ResearchRequest) : M (list ResearchFindings) :=
  analyze_loop (queries request) (information_type request) (context request) [].

End ResearchAgent.

(** ** [TechnologyAnalysisAgent] ([agents/technology_agent.py]) *)

Module TechnologyAnalysisAgent.

(** [_calculate_confidence(maturity, complexity, gaps_count)] *)
Definition confidence_score (maturity : string) (gaps_count : Z) : Q :=
  let c0 := 0.7%Q in
  let c1 :=
    if Text.contains "unclear" (Text.lower maturity)
       || Text.contains "uncertain" (Text.lower maturity)
    then (c0 - 0.15)%Q else c0 in
  let c2 := if (3 <? gaps_count)%Z then (c1 - inject_Z gaps_count * 0.05)%Q else c1 in
  Qmax 0.2%Q (Qmin 0.95%Q c2).

Definition level_of_score (confidence_score : Q) : ConfidenceLevel :=
  if Qltb 0.9%Q confidence_score then VERY_HIGH
  else if Qltb 0.7%Q confidence_score then HIGH
  else if Qltb 0.5%Q confidence_score then MEDIUM
  else if Qltb 0.3%Q confidence_score then LOW
  else VERY_LOW.

Definition _calculate_confidence
    (maturity complexity : string) (gaps_count : Z) : ConfidenceLevel :=
  level_of_score (confidence_score maturity gaps_count).

(** [_extract_feasibility_score(analysis)] *)
Definition _extract_feasibility_score (analysis : string) : Q :=
  let analysis_lower := Text.lower analysis in
  match Text.search_score analysis_lower with
  | Some ds => Text.float_of_digits ds
  | None =>
      match Text.search_feasibility_pct analysis_lower with
      | Some ds => Text.float_of_digits ds
      | None =>
          if Text.contains "highly feasible" analysis_lower
             || Text.contains "excellent" analysis_lower then 85%Q
          else if Text.contains "feasible" analysis_lower
                  && negb (Text.contains "not" analysis_lower) then 70%Q
          else if Text.contains "challenging" analysis_lower
                  || Text.contains "difficult" analysis_lower then 45%Q
          else if Text.contains "not feasible" analysis_lower
                  || Text.contains "infeasible" analysis_lower then 25%Q
          else 60%Q
      end
  end.

(** [_synthesize_analysis]: [synthesize_insights], then the conclusion. *)
Definition _synthesize_analysis : M string :=
  do _synthesis <- synthesize_insights;
  reason.

(** [analyze(request)] *)
Definition analyze : M DimensionAnalysis :=
  do _analysis_plan <- reason;
  do tech_assessment <- reason;
  do complexity_assessment <- reason;
  do _risk_assessment <- reason;
  do _timeline_estimate <- reason;
  do info_gaps <- identify_information_gaps;
  let confidence :=
    _calculate_confidence tech_assessment complexity_assessment
                          (Z.of_nat (length info_gaps)) in
  do final_analysis <- _synthesize_analysis;
  do _reflection <- reflect_on_work;
  let score := _extract_feasibility_score final_analysis in
  ret {| dimension := "technology";
         score := score;
         confidence := confidence;
         reasoning := final_analysis |}.

End TechnologyAnalysisAgent.

(** ** [OrchestratorAgent] ([orchestrator.py]) *)

Module OrchestratorAgent.

(** [self.current_phase = p] *)
Definition set_phase (p : AnalysisPhase) : M unit := modify (with_current_phase p).

(** The query-extraction loop of [_decide_strategy]. *)
Definition extract_queries (strategy_reasoning : string) : list string :=
  flat_map
    (fun line =>
       if Text.contains "query" (Text.lower line)
          || Text.contains "search" (Text.lower line)
          || Text.contains "?" line
       then
         let clean := Text.lstrip_chars bullet_chars (Text.strip line) in
         if (10 <? String.length clean)%nat && Text.contains "?" clean
         then [clean] else []
       else [])
    (Text.split_lines strategy_reasoning).

Definition default_queries (project_name : string) : list string :=
  [ String.append "Market size and trends for " project_name;
    String.append "Technology requirements and maturity for " project_name;
    "Cost estimates for similar projects" ].

Definition is_nil {A} (l : list A) : bool :=
  match l with [] => true | _ :: _ => false end.

(** [_decide_strategy(request)] *)
Definition _decide_strategy (request : ProjectAnalysisRequest) : M AnalysisStrategy :=
  set_phase PLANNING;;
  do strategy_reasoning <- reason;
  let needs_research :=
    Text.contains "yes" (hd "" (Text.split_lines (Text.lower strategy_reasoning)))
    || Text.contains "research" (Text.lower strategy_reasoning) in
  let queries := if needs_research then extract_queries strategy_reasoning else [] in
  let queries :=
    if needs_research && is_nil queries
    then default_queries (project_name request) else queries in
  let decision :=
    {| od_phase := PLANNING; od_action := "execute_strategy";
       od_reasoning := strategy_reasoning; od_confidence := 0.8%Q |} in
  modify (fun s => with_decisions (decisions s ++ [decision]) s);;
  ret {| needs_external_research := needs_research;
         research_queries := take 3 queries;
         priority_dimensions := ["technology"; "market"; "cost"; "ethical"];
         estimated_time := "5-10 minutes" |}.

(** [_coordinate_research(queries, context)] *)
Definition _coordinate_research (queries : list string) (ctx : string)
    : M (list ResearchFindings) :=
  set_phase INFORMATION_GATHERING;;
  ResearchAgent.analyze
    {| queries := queries; information_type := "comprehensive";
       context := ctx; priority := "high" |}.

(** [_simulate_dimension_analysis(dimension, project_desc, research)] *)
Definition _simulate_dimension_analysis (dimension : string) : M DimensionAnalysis :=
  do analysis <- reason;
  let score :=
    match Text.search_score (Text.lower analysis) with
    | Some ds => Text.float_of_digits ds
    | None => 65%Q
    end in
  ret {| dimension := dimension;
         score := score;
         confidence := if Qltb 50 score then MEDIUM else LOW;
         reasoning := analysis |}.

(** [_coordinate_parallel_analysis(project_desc, research_findings)] *)
Definition _coordinate_parallel_analysis : M (list DimensionAnalysis) :=
  set_phase PARALLEL_ANALYSIS;;
  do tech_analysis <- TechnologyAnalysisAgent.analyze;
  do cost_analysis <- _simulate_dimension_analysis "cost";
  do ethical_analysis <- _simulate_dimension_analysis "ethical";
  do market_analysis <- _simulate_dimension_analysis "market";
  let analyses := [tech_analysis; cost_analysis; ethical_analysis; market_analysis] in
  modify (fun s => with_all_analyses (all_analyses s ++ analyses) s);;
  ret analyses.

(** The [confidences] table of [_validate_analyses]. *)
Definition confidences (c : ConfidenceLevel) : Q :=
  match c with
  | VERY_HIGH => 0.95
  | HIGH => 0.80
  | MEDIUM => 0.60
  | LOW => 0.40
  | VERY_LOW => 0.20
  end.

(** [_validate_analyses(analyses, project_desc)] *)
Definition _validate_analyses (analyses : list DimensionAnalysis) : M Validation :=
  set_phase VALIDATION;;
  do avg_confidence <-
    truediv (py_sum (map (fun a => confidences (confidence a)) analyses))
            (Z.of_nat (length analyses));
  do consistency_check <- reason;
  let is_consistent :=
    Text.contains "consistent" (Text.lower consistency_check)
    || Text.contains "no contradiction" (Text.lower consistency_check) in
  do self <- get;
  ret {| v_confidence := avg_confidence;
         is_consistent := is_consistent;
         consistency_check := consistency_check;
         needs_refinement :=
           Qltb avg_confidence (Float64.round (confidence_threshold self)) |}.

(** [_refine_analyses(analyses, validation, project_desc)] *)
Definition _refine_analyses (analyses : list DimensionAnalysis) (validation : Validation)
    : M (list DimensionAnalysis) :=
  set_phase REFINEMENT;;
  modify (fun s => with_iteration (iteration s + 1) s);;
  ret analyses.

(** The [weights] dict of [_synthesize_final_decision], in source order. *)
Definition weights : list (string * Q) :=
  [("technology", 0.30%Q); ("cost", 0.20%Q); ("ethical", 0.20%Q); ("market", 0.30%Q)].

(** [weights.get(key, default)] *)
Fixpoint dict_get (d : list (string * Q)) (key : string) (default : Q) : Q :=
  match d with
  | [] => default
  | (k, v) :: d' => if String.eqb k key then v else dict_get d' key default
  end.

(** The weighted overall score (lines 339-342). *)
Definition weighted_overall_score (analyses : list DimensionAnalysis) : Q :=
  Float64.div
    (py_sum (map (fun a => Float64.mul (score a) (dict_get weights (dimension a) 0.25))
                 analyses))
    (py_sum (map snd weights)).

(** The feasibility band (lines 345-354). *)
Definition feasibility_band (overall_score : Q) : string :=
  if Qle_bool 80 overall_score then "HIGHLY_FEASIBLE"
  else if Qle_bool 65 overall_score then "FEASIBLE"
  else if Qle_bool 50 overall_score then "MODERATELY_FEASIBLE"
  else if Qle_bool 35 overall_score then "CHALLENGING"
  else "NOT_FEASIBLE".

(** [_extract_recommendation(reasoning, feasibility)]; the pictograph that
    opens each message is not ASCII and is dropped. *)
Definition _extract_recommendation (feasibility : string) : string :=
  if String.eqb feasibility "HIGHLY_FEASIBLE" || String.eqb feasibility "FEASIBLE"
  then "PROCEED - Project shows strong feasibility across key dimensions"
  else if String.eqb feasibility "MODERATELY_FEASIBLE"
  then "PROCEED WITH MODIFICATIONS - Address identified risks before full commitment"
  else if String.eqb feasibility "CHALLENGING"
  then "RECONSIDER - Significant challenges require substantial changes"
  else "NOT RECOMMENDED - Critical barriers make success unlikely".

(** [_synthesize_final_decision(analyses, validation, ...)] *)
Definition _synthesize_final_decision
    (analyses : list DimensionAnalysis) (validation : Validation) : M FinalDecision :=
  set_phase SYNTHESIS;;
  let overall_score := weighted_overall_score analyses in
  let feasibility := feasibility_band overall_score in
  do decision_reasoning <- reason;
  do self <- get;
  ret {| overall_feasibility := feasibility;
         overall_score := overall_score;
         fd_confidence := if Qltb 0.75 (v_confidence validation) then HIGH else MEDIUM;
         decision_reasoning := decision_reasoning;
         recommendation := _extract_recommendation feasibility;
         dimension_scores := map (fun a => (dimension a, score a)) analyses;
         analysis_quality := if is_consistent validation then "high" else "moderate";
         limited_to_iterations := iteration self |}.

(** The guard of phase 5 (line 81). *)
Definition should_refine (validation : Validation) (self : System) : bool :=
  Qltb (v_confidence validation) (Float64.round (confidence_threshold self))
  && (iteration self <? max_iterations self)%Z.

(** [analyze_project(request)] *)
Definition analyze_project (request : ProjectAnalysisRequest) : M FinalDecision :=
  do strategy <- _decide_strategy request;
  do research_findings <-
    (if needs_external_research strategy
     then _coordinate_research (research_queries strategy) (project_description request)
     else ret []);
  do analyses <- _coordinate_parallel_analysis;
  do validation <- _validate_analyses analyses;
  do self <- get;
  do analyses <-
    (if should_refine validation self
     then _refine_analyses analyses validation
     else ret analyses);
  do final_decision <- _synthesize_final_decision analyses validation;
  ret final_decision.

End OrchestratorAgent.

(** ** The arithmetic of validation and synthesis with primitive floats

    The same expressions over the kernel's IEEE 754 binary64 numbers
    ([PrimFloat]), which the machine evaluates: a second evaluation, against
    which [Float64] is checked on the examples.  An analysis is reduced to
    its dimension and score, or to its confidence level. *)

Module Binary64.

(** The rational that a finite float denotes, in lowest terms. *)
Definition to_Q (f : float) : option Q :=
  match Prim2SF f with
  | S754_zero _ => Some 0%Q
  | S754_finite sign m e =>
      let v := (inject_Z (Zpos m) * 2 ^ e)%Q in
      Some (Qred (if sign then - v else v))
  | _ => None
  end.

(** [f] is finite and denotes [q]. *)
Definition agrees (f : float) (q : Q) : bool :=
  match to_Q f with
  | Some q' => Qeq_bool q' q
  | None => false
  end.

(** [float(n)] for a small [int]. *)
Definition of_nat (n : nat) : float := Nat.iter n (fun x => x + 1)%float 0%float.

Definition py_sum (xs : list float) : float := fold_left PrimFloat.add xs 0%float.

Definition confidences (c : ConfidenceLevel) : float :=
  match c with
  | VERY_HIGH => 0.95
  | HIGH => 0.80
  | MEDIUM => 0.60
  | LOW => 0.40
  | VERY_LOW => 0.20
  end.

(** The [avg_confidence] of [_validate_analyses] on a non-empty list. *)
Definition avg_confidence (levels : list ConfidenceLevel) : float :=
  (py_sum (map confidences levels) / of_nat (length levels))%float.

Definition weights : list (string * float) :=
  [("technology", 0.30%float); ("cost", 0.20%float);
   ("ethical", 0.20%float); ("market", 0.30%float)].

Fixpoint dict_get (d : list (string * float)) (key : string) (default : float) : float :=
  match d with
  | [] => default
  | (k, v) :: d' => if String.eqb k key then v else dict_get d' key default
  end.

Definition weighted_overall_score (analyses : list (string * float)) : float :=
  (py_sum (map (fun a => snd a * dict_get weights (fst a) 0.25)%float analyses)
   / py_sum (map snd weights))%float.

Definition feasibility_band (overall_score : float) : string :=
  if (80 <=? overall_score)%float then "HIGHLY_FEASIBLE"
  else if (65 <=? overall_score)%float then "FEASIBLE"
  else if (50 <=? overall_score)%float then "MODERATELY_FEASIBLE"
  else if (35 <=? overall_score)%float then "CHALLENGING"
  else "NOT_FEASIBLE".

End Binary64.

(** ** Vocabulary of the specification *)

(** Definitions that follow the words of the specification, to be compared
    with the code above. *)
Module Spec.




(** "floored/ceilinged to [lo, hi]" *)
Definition clamp (lo hi x : Q) : Q := Qmax lo (Qmin hi x).

(** "confidence (derived from source diversity, combined with a qualitative
    read of the synthesized analysis text, averaged and floored/ceilinged
    to [0.1, 0.95])" *)
Definition research_confidence (results : list SearchResult) (analysis : string) : Q :=
  clamp 0.1 0.95
    ((ResearchAgent.source_confidence results
      + ResearchAgent.analysis_confidence analysis) / 2)%Q.

End Spec.

(** The order on confidence levels. *)
Definition level_rank (c : ConfidenceLevel) : nat :=
  match c with VERY_LOW => 0 | LOW => 1 | MEDIUM => 2 | HIGH => 3 | VERY_HIGH => 4 end.

Definition at_most_medium (a : DimensionAnalysis) : Prop :=
  (level_rank (confidence a) <= level_rank MEDIUM)%nat.

(** Number of retrieval calls for [q] in a log of queries. *)
Definition calls_for (q : string) (log : list string) : nat :=
  count_occ string_dec log q.

(** Number of passes through a phase in a phase history. *)
Definition refinement_passes (phases : list AnalysisPhase) : nat :=
  count_occ AnalysisPhase_eq_dec phases REFINEMENT.

Definition validation_passes (phases : list AnalysisPhase) : nat :=
  count_occ AnalysisPhase_eq_dec phases VALIDATION.

(** [s'] differs from [s] in the research agent and the providers' logs
    only. *)
Definition same_orchestrator (s s' : System) : Prop :=
  llm s' = llm s /\ web s' = web s
  /\ current_phase s' = current_phase s /\ iteration s' = iteration s
  /\ confidence_threshold s' = confidence_threshold s
  /\ max_iterations s' = max_iterations s
  /\ decisions s' = decisions s /\ all_analyses s' = all_analyses s
  /\ history s' = history s.

(** The footprint of a stretch of orchestration from [s] to [s']: the phases
    entered, the refinement passes counted, the decisions and analyses
    recorded, and a lower bound on the reasoning calls made. *)
Definition step (s s' : System) (phases : list AnalysisPhase) (passes : Z)
    (ds : list OrchestratorDecision) (das : list DimensionAnalysis) (calls : nat) : Prop :=
  history s' = history s ++ phases
  /\ current_phase s' = List.last phases (current_phase s)
  /\ iteration s' = (iteration s + passes)%Z
  /\ confidence_threshold s' = confidence_threshold s
  /\ max_iterations s' = max_iterations s
  /\ decisions s' = decisions s ++ ds
  /\ all_analyses s' = all_analyses s ++ das
  /\ (llm_calls s + calls <= llm_calls s')%nat.

(** ** Concrete providers and inputs for the examples *)

Module Mock.

Definition nl : string := String "010" EmptyString.

(** The fallback answer of [LLMTool._reason_mock]. *)
Definition reply : string :=
  String.concat nl
    [ "";
      "Analysis (Mock):";
      "The project shows promise with moderate feasibility.";
      "Key strengths: clear value proposition, proven technology.";
      "Key challenges: market competition, resource requirements.";
      "Confidence: 65%";
      "" ].

(** A reasoning provider that gives that answer to every call. *)
Definition llm (n : nat) : string := reply.

(** A reasoning provider whose first answer asks for research. *)
Definition llm_research (n : nat) : string :=
  match n with
  | O => "Yes - external research on the market is needed."
  | S _ => reply
  end.

Definition additional (k : string) : SearchResult :=
  {| title := String.append "Additional resource " k;
     url := String.append "https://example.com/resource-" k;
     snippet := "Supporting information and analysis.";
     source := "Research Database" |}.

(** The generic branch of [WebSearchTool._mock_search], padded to five
    records. *)
Definition search (n : nat) (query : string) : list SearchResult :=
  [ {| title := String.append "Information about: " query;
       url := "https://example.com/info";
       snippet := "Relevant information and analysis regarding the query. Multiple perspectives and data points considered.";
       source := "General Research" |};
    additional "2"; additional "3"; additional "4"; additional "5" ].

Definition orchestrator : System := OrchestratorAgent_init llm search.

Definition request (description : string) : ProjectAnalysisRequest :=
  {| project_description := description;
     project_name := "Demo";
     requester_address := "user";
     analysis_depth := "comprehensive" |}.

Definition analysis (d : string) (x : Q) (c : ConfidenceLevel) : DimensionAnalysis :=
  {| dimension := d; score := x; confidence := c; reasoning := reply |}.

Definition validation : Validation :=
  {| v_confidence := 0.60; is_consistent := true;
     consistency_check := reply; needs_refinement := true |}.


End Mock.

(** ** The two evaluations side by side *)

Module Agreement.

(** The product of an integer score and a weight. *)
Definition product (w : Q) (w' : float) (x : nat) : bool :=
  Binary64.agrees (Binary64.of_nat x * w')%float
                  (Float64.mul (inject_Z (Z.of_nat x)) w).

(** The overall score of four integer scores. *)
Definition overall (t c e m : nat) : bool :=
  Binary64.agrees
    (Binary64.weighted_overall_score
       [ ("technology", Binary64.of_nat t); ("cost", Binary64.of_nat c);
         ("ethical", Binary64.of_nat e); ("market", Binary64.of_nat m) ])
    (OrchestratorAgent.weighted_overall_score
       [ Mock.analysis "technology" (inject_Z (Z.of_nat t)) MEDIUM;
         Mock.analysis "cost" (inject_Z (Z.of_nat c)) MEDIUM;
         Mock.analysis "ethical" (inject_Z (Z.of_nat e)) MEDIUM;
         Mock.analysis "market" (inject_Z (Z.of_nat m)) MEDIUM ]).

Definition overall_on (grid : list nat) : bool :=
  forallb (fun t =>
    forallb (fun c =>
      forallb (fun e =>
        forallb (fun m => overall t c e m) grid) grid) grid) grid.

(** The aggregate confidence of a list of levels. *)
Definition average (levels : list ConfidenceLevel) : bool :=
  Binary64.agrees
    (Binary64.avg_confidence levels)
    (Float64.div (py_sum (map OrchestratorAgent.confidences levels))
                 (inject_Z (Z.of_nat (length levels)))).

End Agreement.

(** * Properties *)

Import OrchestratorAgent ResearchAgent TechnologyAnalysisAgent.

(** Unfolds the monad, so that a straight-line method reduces to its
    outcome. *)
Ltac run_m :=
  cbv beta iota zeta delta
    [bind ret get modify raise set_phase reason synthesize_insights].

(** ** The text helpers on examples *)

Example lower_example : Text.lower "Score: 72 UNCLEAR" = "score: 72 unclear".
Proof. reflexivity. Qed.

Example search_score_example :
  Text.search_score "overall score:  72/100, cost score 5" = Some "72".
Proof. reflexivity. Qed.

Example search_score_none : Text.search_score "score high, 72" = None.
Proof. reflexivity. Qed.

Example search_over_100_example : Text.search_over_100 "rated 85/100 overall" = Some "85".
Proof. reflexivity. Qed.

Example split_lines_example :
  Text.split_lines (String.concat Mock.nl ["a"; "b"; ""]) = ["a"; "b"; ""].
Proof. reflexivity. Qed.

Example strip_example :
  Text.lstrip_chars bullet_chars (Text.strip "  - 1. gap one ") = "gap one".
Proof. reflexivity. Qed.

Example parse_gaps_example :
  parse_gaps (String.concat Mock.nl ["Gaps:"; "- budget"; "2. team size"; "none"])
  = ["budget"; "team size"].
Proof. reflexivity. Qed.

Example calculate_confidence_examples :
  _calculate_confidence "mature stack" "" 0 = MEDIUM
  /\ _calculate_confidence "maturity is unclear" "" 0 = MEDIUM
  /\ _calculate_confidence "mature stack" "" 4 = LOW
  /\ _calculate_confidence "maturity is unclear" "" 8 = VERY_LOW.
Proof. repeat split. Qed.

(** A run in which planning asks for research: the three default queries
    are retrieved between PLANNING and PARALLEL_ANALYSIS. *)
Example run_with_research :
  exists d s',
    analyze_project (Mock.request "An AI triage assistant for clinics.")
      (OrchestratorAgent_init Mock.llm_research Mock.search)
    = Returns d s'
    /\ history s'
       = [PLANNING; PLANNING; INFORMATION_GATHERING; PARALLEL_ANALYSIS;
          VALIDATION; REFINEMENT; SYNTHESIS]
    /\ searches s'
       = [ "Market size and trends for Demo";
           "Technology requirements and maturity for Demo";
           "Cost estimates for similar projects" ]
    /\ overall_feasibility d = "MODERATELY_FEASIBLE".
Proof. vm_compute. eexists _, _. repeat split. Qed.

(** ** Arithmetic *)

Lemma Qltb_lt (x y : Q) : Qltb x y = true <-> (x < y)%Q.
Proof.
  unfold Qltb. rewrite negb_true_iff, <- not_true_iff_false, Qle_bool_iff.
  split; [apply Qnot_le_lt | apply Qlt_not_le].
Qed.

Lemma Qle_bool_false (x y : Q) : Qle_bool x y = false <-> (y < x)%Q.
Proof.
  rewrite <- not_true_iff_false, Qle_bool_iff.
  split; [apply Qnot_le_lt | apply Qlt_not_le].
Qed.

(** ** Rounding to binary64 *)

Lemma round_comp (x y : Q) : (x == y)%Q -> Float64.round x = Float64.round y.
Proof. intros H. unfold Float64.round. rewrite (Qred_complete x y H). reflexivity. Qed.












(** ** [Float64] against the primitive floats *)

Example round_examples :
  Float64.round 0.3 = (5404319552844595 # 18014398509481984)%Q
  /\ Binary64.to_Q 0.3%float = Some (Float64.round 0.3)
  /\ Binary64.to_Q (1 / 3)%float = Some (Float64.round (1 # 3))
  /\ Binary64.to_Q (-0.7)%float = Some (Float64.round (- 0.7))
  /\ Binary64.to_Q 1e30%float = Some (Float64.round (10 ^ 30))
  /\ Binary64.to_Q 1e-320%float = Some (Float64.round (10 ^ (-320)))
  /\ Float64.round (inject_Z (2 ^ 53 + 1)) = inject_Z (2 ^ 53)
  /\ Float64.round (inject_Z (2 ^ 53 + 3)) = inject_Z (2 ^ 53 + 4).
Proof. repeat split; vm_compute; reflexivity. Qed.

(** Every product score x weight of an integer score up to 100. *)
Example products_agree :
  forallb (Agreement.product 0.30 0.30) (seq 0 101) = true
  /\ forallb (Agreement.product 0.20 0.20) (seq 0 101) = true.
Proof. split; vm_compute; reflexivity. Qed.

(** The overall score on a grid of 625 score vectors. *)
Example overall_scores_agree :
  Agreement.overall_on [0; 24; 48; 91; 100]%nat = true.
Proof. vm_compute. reflexivity. Qed.

(** The aggregate confidence of every list of four levels, and of the list
    of five used below. *)
Lemma averages_agree (c1 c2 c3 c4 : ConfidenceLevel) :
  Agreement.average [c1; c2; c3; c4] = true.
Proof. destruct c1, c2, c3, c4; vm_compute; reflexivity. Qed.

Example average_of_five_agrees :
  Agreement.average [MEDIUM; HIGH; VERY_HIGH; HIGH; MEDIUM] = true.
Proof. vm_compute. reflexivity. Qed.

Lemma band_iff (s : Q) :
    (feasibility_band s = "HIGHLY_FEASIBLE" <-> 80 <= s)%Q
  /\ (feasibility_band s = "FEASIBLE" <-> 65 <= s /\ s < 80)%Q
  /\ (feasibility_band s = "MODERATELY_FEASIBLE" <-> 50 <= s /\ s < 65)%Q
  /\ (feasibility_band s = "CHALLENGING" <-> 35 <= s /\ s < 50)%Q
  /\ (feasibility_band s = "NOT_FEASIBLE" <-> s < 35)%Q.
Proof.
  unfold feasibility_band.
  destruct (Qle_bool 80 s) eqn:H80; [apply Qle_bool_iff in H80 | apply Qle_bool_false in H80];
  (destruct (Qle_bool 65 s) eqn:H65; [apply Qle_bool_iff in H65 | apply Qle_bool_false in H65]);
  (destruct (Qle_bool 50 s) eqn:H50; [apply Qle_bool_iff in H50 | apply Qle_bool_false in H50]);
  (destruct (Qle_bool 35 s) eqn:H35; [apply Qle_bool_iff in H35 | apply Qle_bool_false in H35]);
  repeat split; intros; try discriminate; try lra.
Qed.

Lemma synthesize_returns (analyses : list DimensionAnalysis) (v : Validation) (s : System) :
  exists d s',
    _synthesize_final_decision analyses v s = Returns d s'
    /\ overall_score d = weighted_overall_score analyses
    /\ overall_feasibility d = feasibility_band (overall_score d)
    /\ fd_confidence d = (if Qltb 0.75 (v_confidence v) then HIGH else MEDIUM)
    /\ limited_to_iterations d = iteration s
    /\ s' = with_llm_calls (S (llm_calls s)) (with_current_phase SYNTHESIS s).
Proof.
  unfold _synthesize_final_decision. run_m.
  eexists _, _. split; [reflexivity|]. repeat split.
Qed.

(** ** The overall score *)








(** C3.  The feasibility band of an overall score [s] is HIGHLY_FEASIBLE iff
    80 <= s, FEASIBLE iff 65 <= s < 80, MODERATELY_FEASIBLE iff
    50 <= s < 65, CHALLENGING iff 35 <= s < 50 and NOT_FEASIBLE iff s < 35;
    80, 65, 50 and 35 fall into the upper band and 34.9 is NOT_FEASIBLE
    (also in binary64); synthesis labels its overall score with this
    band. *)
Theorem C3_feasibility_bands :
  (forall s : Q,
      (feasibility_band s = "HIGHLY_FEASIBLE" <-> 80 <= s)%Q
      /\ (feasibility_band s = "FEASIBLE" <-> 65 <= s /\ s < 80)%Q
      /\ (feasibility_band s = "MODERATELY_FEASIBLE" <-> 50 <= s /\ s < 65)%Q
      /\ (feasibility_band s = "CHALLENGING" <-> 35 <= s /\ s < 50)%Q
      /\ (feasibility_band s = "NOT_FEASIBLE" <-> s < 35)%Q)
  /\ feasibility_band 80 = "HIGHLY_FEASIBLE"
  /\ feasibility_band 65 = "FEASIBLE"
  /\ feasibility_band 50 = "MODERATELY_FEASIBLE"
  /\ feasibility_band 35 = "CHALLENGING"
  /\ feasibility_band 34.9 = "NOT_FEASIBLE"
  /\ Binary64.feasibility_band 80 = "HIGHLY_FEASIBLE"
  /\ Binary64.feasibility_band 65 = "FEASIBLE"
  /\ Binary64.feasibility_band 50 = "MODERATELY_FEASIBLE"
  /\ Binary64.feasibility_band 35 = "CHALLENGING"
  /\ Binary64.feasibility_band 34.9 = "NOT_FEASIBLE"
  /\ (forall (analyses : list DimensionAnalysis) (v : Validation) (s : System),
        exists d s',
          _synthesize_final_decision analyses v s = Returns d s'
          /\ overall_feasibility d = feasibility_band (overall_score d)).
Proof.
  split; [exact band_iff|].
  repeat (split; [reflexivity|]).
  intros analyses v s.
  destruct (synthesize_returns analyses v s) as (d & s' & Hrun & _ & Hband & _).
  exists d, s'. split; assumption.
Qed.

(** ** Validation *)

Lemma validate_returns (analyses : list DimensionAnalysis) (s : System) :
  analyses <> [] ->
  exists v s',
    _validate_analyses analyses s = Returns v s'
    /\ v_confidence v
       = Float64.div (py_sum (map (fun a => confidences (confidence a)) analyses))
                     (inject_Z (Z.of_nat (length analyses)))
    /\ needs_refinement v
       = Qltb (v_confidence v) (Float64.round (confidence_threshold s))
    /\ s' = with_llm_calls (S (llm_calls s)) (with_current_phase VALIDATION s).
Proof.
  intros Hne. unfold _validate_analyses, truediv. run_m.
  destruct analyses as [|a l]; [congruence|].
  replace (Z.of_nat (length (a :: l)) =? 0)%Z with false
    by (symmetry; apply Z.eqb_neq; simpl; lia).
  eexists _, _. split; [reflexivity|]. repeat split.
Qed.

Lemma validate_empty (s : System) :
  _validate_analyses [] s = Raises ZeroDivisionError.
Proof. reflexivity. Qed.












(** C6, as amended.  Validation of an empty list raises ZeroDivisionError
    (the division by [len(analyses)]), whatever the state, and so never
    returns a result; validation of a non-empty list always returns. *)
Theorem C6_validation_fails_only_on_empty :
  (forall s : System, _validate_analyses [] s = Raises ZeroDivisionError)
  /\ (forall (analyses : list DimensionAnalysis) (s : System),
        analyses <> [] ->
        exists v s', _validate_analyses analyses s = Returns v s').
Proof.
  split; [exact validate_empty|].
  intros analyses s Hne.
  destruct (validate_returns analyses s Hne) as (v & s' & Hrun & _).
  exists v, s'. exact Hrun.
Qed.

Lemma analysis_confidence_bounds (analysis : string) :
  (0.4 <= analysis_confidence analysis <= 0.75)%Q.
Proof.
  unfold analysis_confidence.
  destruct (_ || _); [split; lra|].
  destruct (_ || _); split; lra.
Qed.

Lemma source_confidence_bounds (results : list SearchResult) :
  (0 <= source_confidence results <= 0.35)%Q.
Proof.
  unfold source_confidence. split.
  - apply Q.min_glb; [|lra].
    apply Qmult_le_0_compat; [|lra].
    change 0%Q with (inject_Z 0). rewrite <- Zle_Qle. lia.
  - apply Q.le_min_r.
Qed.

Lemma research_query_returns (query info_type ctx : string) (s : System) :
  exists f s',
    _research_query query info_type ctx s = Returns f s'
    /\ rf_query f = query
    /\ rf_findings f = web s (length (searches s)) query
    /\ agent_reasoning f = llm s (S (llm_calls s))
    /\ rf_confidence f = _assess_research_confidence (rf_findings f) (agent_reasoning f)
    /\ (rf_findings f = [] -> relevance_score f = 0%Q)
    /\ searches s' = searches s ++ [query]
    /\ findings_cache s' = findings_cache s
    /\ (llm_calls s <= llm_calls s')%nat
    /\ llm s' = llm s /\ web s' = web s
    /\ current_phase s' = current_phase s /\ iteration s' = iteration s
    /\ confidence_threshold s' = confidence_threshold s
    /\ max_iterations s' = max_iterations s
    /\ decisions s' = decisions s /\ all_analyses s' = all_analyses s
    /\ history s' = history s.
Proof.
  unfold _research_query, _decide_search_strategy, _analyze_search_results,
    _assess_relevance, web_search. run_m.
  cbn [llm_calls with_llm_calls with_searches searches llm web].
  destruct (web s (length (searches s)) query) as [|r rs] eqn:Hweb.
  - eexists _, _. split; [reflexivity|]. cbn.
    repeat split; try reflexivity; try lia.
  - eexists _, _. split; [reflexivity|]. cbn.
    repeat split; try reflexivity; try lia; try discriminate.
Qed.

(** C9, as amended.  On a cache miss [_research_query] returns a finding
    whose confidence, for a non-empty result list, is
    min((min(distinct sources x 0.15, 0.35) + qualitative component) / 2
    + 0.2, 0.95), a value within [0.1, 0.95], the qualitative component
    being 0.4, 0.75 or 0.6 according to the analysis text; for an empty
    result list the relevance is 0 and the confidence 0.1. *)
Theorem C9_research_confidence (query info_type ctx : string) (s : System) :
  exists f s',
    _research_query query info_type ctx s = Returns f s'
    /\ rf_findings f = web s (length (searches s)) query
    /\ agent_reasoning f = llm s (S (llm_calls s))
    /\ (analysis_confidence (agent_reasoning f) = 0.4%Q
        \/ analysis_confidence (agent_reasoning f) = 0.75%Q
        \/ analysis_confidence (agent_reasoning f) = 0.6%Q)
    /\ (rf_findings f <> [] ->
        rf_confidence f
        = Qmin ((Qmin (inject_Z (Z.of_nat (num_sources (rf_findings f))) * 0.15) 0.35
                 + analysis_confidence (agent_reasoning f)) / 2 + 0.2) 0.95
        /\ (0.1 <= rf_confidence f <= 0.95)%Q)
    /\ (rf_findings f = [] ->
        relevance_score f = 0%Q /\ rf_confidence f = 0.1%Q).
Proof.
  destruct (research_query_returns query info_type ctx s)
    as (f & s' & Hrun & _ & Hres & Han & Hconf & Hrel & _).
  exists f, s'. split; [exact Hrun|]. split; [exact Hres|]. split; [exact Han|].
  split; [|split].
  - unfold analysis_confidence.
    destruct (_ || _); [left; reflexivity|].
    destruct (_ || _); [right; left | right; right]; reflexivity.
  - intros Hne. rewrite Hconf.
    destruct (rf_findings f) as [|r rs] eqn:Hf; [congruence|].
    split; [reflexivity|].
    unfold _assess_research_confidence.
    pose proof (analysis_confidence_bounds (agent_reasoning f)) as [Ha1 Ha2].
    pose proof (source_confidence_bounds (r :: rs)) as [Hs1 Hs2].
    split.
    + apply Q.min_glb; [|lra].
      unfold Qdiv. change (/ 2)%Q with (1 # 2)%Q. lra.
    + apply Q.le_min_r.
  - intros Hnil. split; [exact (Hrel Hnil)|].
    rewrite Hconf, Hnil. reflexivity.
Qed.

Lemma same_orchestrator_refl s : same_orchestrator s s.
Proof. repeat split. Qed.

Lemma same_orchestrator_trans s1 s2 s3 :
  same_orchestrator s1 s2 -> same_orchestrator s2 s3 -> same_orchestrator s1 s3.
Proof.
  unfold same_orchestrator. intros H1 H2.
  destruct H1 as (?&?&?&?&?&?&?&?&?), H2 as (?&?&?&?&?&?&?&?&?).
  repeat split; congruence.
Qed.

Lemma analyze_loop_hit (q : string) (qs : list string) (info_type ctx : string)
    (acc : list ResearchFindings) (s : System) (f : ResearchFindings) :
  findings_cache s !! q = Some f ->
  analyze_loop (q :: qs) info_type ctx acc s = analyze_loop qs info_type ctx (acc ++ [f]) s.
Proof. intros H. cbn [analyze_loop]. run_m. rewrite H. reflexivity. Qed.

Lemma analyze_loop_spec (qs : list string) (info_type ctx : string) :
  forall (acc : list ResearchFindings) (s : System),
  exists fs s' new,
    analyze_loop qs info_type ctx acc s = Returns (acc ++ fs) s'
    /\ length fs = length qs
    /\ searches s' = searches s ++ new
    /\ (forall q, q ∈ qs -> findings_cache s !! q = None -> calls_for q new = 1%nat)
    /\ (forall q, q ∉ qs -> calls_for q new = 0%nat)
    /\ (forall q, is_Some (findings_cache s !! q) -> calls_for q new = 0%nat)
    /\ findings_cache s ⊆ findings_cache s'
    /\ (forall i q, qs !! i = Some q ->
          exists f, fs !! i = Some f /\ findings_cache s' !! q = Some f)
    /\ same_orchestrator s s'
    /\ (llm_calls s <= llm_calls s')%nat.
Proof.
  induction qs as [|q qs IH]; intros acc s.
  - exists [], s, []. rewrite !app_nil_r.
    repeat split; try reflexivity; try lia.
    + intros q Hq. inversion Hq.
    + intros i q Hi. rewrite lookup_nil in Hi. discriminate.
  - destruct (findings_cache s !! q) as [cached|] eqn:Hc.
    + rewrite (analyze_loop_hit _ _ _ _ _ _ _ Hc).
      destruct (IH (acc ++ [cached]) s)
        as (fs & s' & new & Hrun & Hlen & Hs & H1 & H0 & Hcached & Hsub & Hfs & Hfr & Hll).
      exists (cached :: fs), s', new.
      rewrite <- app_assoc in Hrun. 
      split; [exact Hrun|]. split; [simpl; lia|]. split; [exact Hs|].
      split; [|split; [|split; [exact Hcached|split; [exact Hsub|split; [|split; assumption]]]]].
      * intros q' Hq' Hnone. apply H1; [|exact Hnone].
        apply elem_of_cons in Hq' as [->|Hq']; [congruence|exact Hq'].
      * intros q' Hq'. apply H0. intros Hin. apply Hq'. right. exact Hin.
      * intros [|i] q' Hi; simpl in Hi.
        -- injection Hi as <-. exists cached. split; [reflexivity|].
           eapply lookup_weaken; eassumption.
        -- apply Hfs, Hi.
    + cbn [analyze_loop]. run_m. rewrite Hc.
      destruct (research_query_returns q info_type ctx s)
        as (f & s1 & Hrq & _ & _ & _ & _ & _ & Hs1 & Hc1 & Hl1 & Hfr1).
      rewrite Hrq.
      set (s2 := with_findings_cache (<[q:=f]> (findings_cache s1)) s1).
      destruct (IH (acc ++ [f]) s2)
        as (fs & s' & new & Hrun & Hlen & Hs & H1 & H0 & Hcached & Hsub & Hfs & Hfr & Hll).
      exists (f :: fs), s', (q :: new).
      rewrite <- app_assoc in Hrun.
      assert (Hc2 : findings_cache s2 = <[q:=f]> (findings_cache s)).
      { unfold s2. cbn. rewrite Hc1. reflexivity. }
      split; [exact Hrun|]. split; [simpl; lia|].
      split; [rewrite Hs; unfold s2; cbn; rewrite Hs1, <- app_assoc; reflexivity|].
      split; [|split; [|split; [|split; [|split; [|split]]]]].
      * intros q' Hq' Hnone. unfold calls_for. cbn [count_occ].
        destruct (string_dec q q') as [<-|Hne].
        -- f_equal. apply Hcached. rewrite Hc2, lookup_insert_eq. eauto.
        -- apply H1.
           ++ apply elem_of_cons in Hq' as [->|Hq']; [congruence|exact Hq'].
           ++ rewrite Hc2, lookup_insert_ne by exact Hne. exact Hnone.
      * intros q' Hq'. unfold calls_for. cbn [count_occ].
        destruct (string_dec q q') as [<-|Hne].
        -- exfalso. apply Hq'. left.
        -- apply H0. intros Hin. apply Hq'. right. exact Hin.
      * intros q' Hsome. unfold calls_for. cbn [count_occ].
        destruct (string_dec q q') as [<-|Hne].
        -- rewrite Hc in Hsome. destruct Hsome as [? ?]. discriminate.
        -- apply Hcached. rewrite Hc2, lookup_insert_ne by exact Hne. exact Hsome.
      * etransitivity; [|exact Hsub]. rewrite Hc2. apply insert_subseteq, Hc.
      * intros [|i] q' Hi; simpl in Hi.
        -- injection Hi as <-. exists f. split; [reflexivity|].
           eapply lookup_weaken; [|exact Hsub]. rewrite Hc2. apply lookup_insert_eq.
        -- apply Hfs, Hi.
      * eapply same_orchestrator_trans; [|exact Hfr].
        unfold same_orchestrator, s2. cbn. exact Hfr1.
      * unfold s2 in Hll. cbn in Hll. lia.
Qed.

(** C8.  When one request names the same query [q] at two positions and [q]
    is not cached beforehand, the run issues exactly one retrieval call for
    [q], both positions receive the identical finding, which is the cached
    one, and gathering [q] again afterwards returns that finding and leaves
    the cache and the providers' call logs as they are: no retrieval call
    and no reasoning call. *)
Theorem C8_same_query_retrieved_once
    (request : ResearchRequest) (s : System) (q : string) (i j : nat)
    (Hij : (i < j)%nat)
    (Hi : queries request !! i = Some q) (Hj : queries request !! j = Some q)
    (Hfresh : findings_cache s !! q = None) :
  exists findings s' new f,
    ResearchAgent.analyze request s = Returns findings s'
    /\ searches s' = searches s ++ new
    /\ calls_for q new = 1%nat
    /\ findings !! i = Some f /\ findings !! j = Some f
    /\ findings_cache s' !! q = Some f
    /\ (forall again : ResearchRequest,
          queries again = [q] ->
          ResearchAgent.analyze again s' = Returns [f] s').
Proof.
  unfold ResearchAgent.analyze.
  destruct (analyze_loop_spec (queries request) (information_type request)
              (context request) [] s)
    as (fs & s' & new & Hrun & _ & Hs & H1 & _ & _ & _ & Hfs & _).
  destruct (Hfs i q Hi) as (f & Hfi & Hcache).
  destruct (Hfs j q Hj) as (f' & Hfj & Hcache').
  assert (f' = f) as -> by congruence.
  exists fs, s', new, f.
  split; [exact Hrun|]. split; [exact Hs|].
  split; [apply H1; [eapply list_elem_of_lookup_2; exact Hi | exact Hfresh]|].
  split; [exact Hfi|]. split; [exact Hfj|]. split; [exact Hcache|].
  intros again Hq. rewrite Hq.
  rewrite (analyze_loop_hit _ _ _ _ _ _ _ Hcache). reflexivity.
Qed.

Lemma step_trans s1 s2 s3 p1 p2 i1 i2 d1 d2 a1 a2 n1 n2 :
  step s1 s2 p1 i1 d1 a1 n1 -> step s2 s3 p2 i2 d2 a2 n2 ->
  step s1 s3 (p1 ++ p2) (i1 + i2) (d1 ++ d2) (a1 ++ a2) (n1 + n2).
Proof.
  unfold step.
  intros (H1 & H2 & H3 & H4 & H5 & H6 & H7 & H8) (G1 & G2 & G3 & G4 & G5 & G6 & G7 & G8).
  repeat split.
  - rewrite G1, H1, app_assoc. reflexivity.
  - rewrite G2, H2. destruct p2 as [|x p2] using rev_ind.
    + rewrite app_nil_r. reflexivity.
    + rewrite app_assoc, !last_last. reflexivity.
  - rewrite G3, H3. lia.
  - congruence.
  - congruence.
  - rewrite G6, H6, app_assoc. reflexivity.
  - rewrite G7, H7, app_assoc. reflexivity.
  - lia.
Qed.

Lemma step_weaken s s' p p' i i' d d' a a' n n' :
  step s s' p i d a n ->
  p = p' -> i = i' -> d = d' -> a = a' -> (n' <= n)%nat ->
  step s s' p' i' d' a' n'.
Proof.
  intros (H1 & H2 & H3 & H4 & H5 & H6 & H7 & H8) <- <- <- <- Hn.
  repeat split; try assumption. lia.
Qed.

Lemma step_of_same_orchestrator s s' :
  same_orchestrator s s' -> (llm_calls s <= llm_calls s')%nat -> step s s' [] 0 [] [] 0.
Proof.
  intros (?&?&?&?&?&?&?&?&?) ?. unfold step. rewrite !app_nil_r.
  repeat split; try assumption; try lia.
Qed.

Lemma decide_strategy_returns (request : ProjectAnalysisRequest) (s : System) :
  exists strategy s' dec,
    _decide_strategy request s = Returns strategy s'
    /\ od_phase dec = PLANNING
    /\ llm_calls s' = S (llm_calls s)
    /\ searches s' = searches s
    /\ step s s' [PLANNING] 0 [dec] [] 1.
Proof.
  unfold _decide_strategy. run_m.
  eexists _, _, _. split; [reflexivity|].
  unfold step. cbn. rewrite !app_nil_r.
  repeat split; try reflexivity; lia.
Qed.

Lemma coordinate_research_returns (qs : list string) (ctx : string) (s : System) :
  exists findings s',
    _coordinate_research qs ctx s = Returns findings s'
    /\ step s s' [INFORMATION_GATHERING] 0 [] [] 0.
Proof.
  unfold _coordinate_research, ResearchAgent.analyze. run_m. cbn [queries information_type context].
  destruct (analyze_loop_spec qs "comprehensive" ctx [] (with_current_phase INFORMATION_GATHERING s))
    as (fs & s' & new & Hrun & _ & _ & _ & _ & _ & _ & _ & Hfr & Hll).
  exists fs, s'. split; [exact Hrun|].
  apply (step_trans s (with_current_phase INFORMATION_GATHERING s) s'
           [INFORMATION_GATHERING] [] 0 0 [] [] [] [] 0 0).
  - unfold step. cbn. rewrite !app_nil_r. repeat split; lia.
  - apply step_of_same_orchestrator; assumption.
Qed.

Lemma Qltb_false (x y : Q) : (y <= x)%Q -> Qltb x y = false.
Proof. intros H. unfold Qltb. apply negb_false_iff, Qle_bool_iff, H. Qed.

Lemma confidence_score_le (maturity : string) (gaps_count : Z) :
  (confidence_score maturity gaps_count <= 0.7)%Q.
Proof.
  unfold confidence_score.
  set (c1 := if _ || _ then _ else _).
  assert (H1 : (c1 <= 0.7)%Q) by (unfold c1; destruct (_ || _); lra).
  set (c2 := if (3 <? gaps_count)%Z then _ else _).
  assert (H2 : (c2 <= 0.7)%Q).
  { unfold c2. destruct (3 <? gaps_count)%Z eqn:Hg; [|exact H1].
    apply Z.ltb_lt in Hg.
    assert (0 <= inject_Z gaps_count)%Q
      by (change 0%Q with (inject_Z 0); rewrite <- Zle_Qle; lia).
    nra. }
  apply Q.max_lub; [lra|].
  eapply Qle_trans; [apply Q.le_min_r | exact H2].
Qed.

Lemma calculate_confidence_at_most_medium (maturity complexity : string) (gaps_count : Z) :
  (level_rank (_calculate_confidence maturity complexity gaps_count)
   <= level_rank MEDIUM)%nat.
Proof.
  unfold _calculate_confidence, level_of_score.
  pose proof (confidence_score_le maturity gaps_count) as H.
  rewrite (Qltb_false 0.9) by lra.
  rewrite (Qltb_false 0.7) by lra.
  destruct (Qltb 0.5 _); [|destruct (Qltb 0.3 _)]; simpl; lia.
Qed.

Lemma technology_analyze_returns (s : System) :
  exists a,
    TechnologyAnalysisAgent.analyze s = Returns a (with_llm_calls (9 + llm_calls s) s)
    /\ dimension a = "technology" /\ at_most_medium a.
Proof.
  unfold TechnologyAnalysisAgent.analyze, identify_information_gaps,
    _synthesize_analysis, reflect_on_work. run_m.
  eexists. split; [reflexivity|]. split; [reflexivity|].
  apply calculate_confidence_at_most_medium.
Qed.

Lemma simulate_returns (dim : string) (s : System) :
  exists a,
    _simulate_dimension_analysis dim s = Returns a (with_llm_calls (1 + llm_calls s) s)
    /\ dimension a = dim /\ at_most_medium a
    /\ confidence a = (if Qltb 50 (score a) then MEDIUM else LOW).
Proof.
  unfold _simulate_dimension_analysis. run_m.
  eexists. split; [reflexivity|]. split; [reflexivity|].
  split; [|reflexivity].
  unfold at_most_medium. cbn [confidence]. destruct (Qltb 50 _); simpl; lia.
Qed.

Lemma coordinate_parallel_returns (s : System) :
  exists analyses s',
    _coordinate_parallel_analysis s = Returns analyses s'
    /\ map dimension analyses = ["technology"; "cost"; "ethical"; "market"]
    /\ Forall at_most_medium analyses
    /\ step s s' [PARALLEL_ANALYSIS] 0 [] analyses 12.
Proof.
  unfold _coordinate_parallel_analysis. 
  cbv beta iota zeta delta [bind set_phase modify ret].
  destruct (technology_analyze_returns (with_current_phase PARALLEL_ANALYSIS s))
    as (t & Ht & Hdt & Hmt).
  rewrite Ht.
  destruct (simulate_returns "cost" (with_llm_calls (9 + llm_calls (with_current_phase PARALLEL_ANALYSIS s)) (with_current_phase PARALLEL_ANALYSIS s)))
    as (c & Hc & Hdc & Hmc & _).
  rewrite Hc.
  match goal with |- context [_simulate_dimension_analysis "ethical" ?st] =>
    destruct (simulate_returns "ethical" st) as (e & He & Hde & Hme & _) end.
  rewrite He.
  match goal with |- context [_simulate_dimension_analysis "market" ?st] =>
    destruct (simulate_returns "market" st) as (m & Hm & Hdm & Hmm & _) end.
  rewrite Hm.
  eexists _, _. split; [reflexivity|].
  split; [cbn [map]; congruence|].
  split; [repeat (apply Forall_cons_2; [assumption|]); apply Forall_nil_2|].
  unfold step. cbn. rewrite !app_nil_r. repeat split; try reflexivity; lia.
Qed.

Lemma bind_Returns {A B} (c : M A) (k : A -> M B) (s s1 : System) (a : A) :
  c s = Returns a s1 -> bind c k s = k a s1.
Proof. intros H. unfold bind. rewrite H. reflexivity. Qed.

Lemma refine_returns (analyses : list DimensionAnalysis) (v : Validation) (s : System) :
  exists s',
    _refine_analyses analyses v s = Returns analyses s'
    /\ step s s' [REFINEMENT] 1 [] [] 0.
Proof.
  unfold _refine_analyses. run_m. eexists. split; [reflexivity|].
  unfold step. cbn. rewrite !app_nil_r. repeat split; lia.
Qed.

Lemma should_refine_step (v : Validation) (s s' : System) p ds das n :
  step s s' p 0 ds das n -> should_refine v s' = should_refine v s.
Proof.
  intros (_ & _ & Hi & Ht & Hm & _). unfold should_refine.
  rewrite Hi, Ht, Hm, Z.add_0_r. reflexivity.
Qed.

Lemma analyze_project_run (request : ProjectAnalysisRequest) (s : System) :
  exists d s' pre analyses v dec,
    analyze_project request s = Returns d s'
    /\ (pre = [] \/ pre = [INFORMATION_GATHERING])
    /\ step s s'
         ([PLANNING] ++ pre ++ [PARALLEL_ANALYSIS; VALIDATION]
          ++ (if should_refine v s then [REFINEMENT] else []) ++ [SYNTHESIS])
         (if should_refine v s then 1 else 0) [dec] analyses 15
    /\ od_phase dec = PLANNING
    /\ map dimension analyses = ["technology"; "cost"; "ethical"; "market"]
    /\ Forall at_most_medium analyses
    /\ v_confidence v
       = Float64.div (py_sum (map (fun a => confidences (confidence a)) analyses))
                     (inject_Z (Z.of_nat (length analyses)))
    /\ needs_refinement v
       = Qltb (v_confidence v) (Float64.round (confidence_threshold s))
    /\ overall_score d = weighted_overall_score analyses
    /\ overall_feasibility d = feasibility_band (overall_score d)
    /\ fd_confidence d = (if Qltb 0.75 (v_confidence v) then HIGH else MEDIUM)
    /\ limited_to_iterations d = iteration s'.
Proof.
  unfold analyze_project.
  destruct (decide_strategy_returns request s)
    as (strategy & s1 & dec & Hplan & Hdec & _ & _ & Hstep1).
  rewrite (bind_Returns _ _ _ _ _ Hplan).
  assert (Hres : exists findings s2 pre,
             (if needs_external_research strategy
              then _coordinate_research (research_queries strategy)
                     (project_description request)
              else ret []) s1 = Returns findings s2
             /\ (pre = [] \/ pre = [INFORMATION_GATHERING])
             /\ step s1 s2 pre 0 [] [] 0).
  { destruct (needs_external_research strategy).
    - destruct (coordinate_research_returns (research_queries strategy)
                  (project_description request) s1) as (fs & s2 & Hr & Hst).
      exists fs, s2, [INFORMATION_GATHERING]. auto.
    - exists [], s1, []. split; [reflexivity|]. split; [auto|].
      apply step_of_same_orchestrator; [apply same_orchestrator_refl | lia]. }
  destruct Hres as (findings & s2 & pre & Hres & Hpre & Hstep2).
  rewrite (bind_Returns _ _ _ _ _ Hres).
  destruct (coordinate_parallel_returns s2) as (analyses & s3 & Hpar & Hdims & Hmed & Hstep3).
  rewrite (bind_Returns _ _ _ _ _ Hpar).
  assert (Hne : analyses <> []) by (intros ->; discriminate Hdims).
  destruct (validate_returns analyses s3 Hne) as (v & s4 & Hval & Hvc & Hvn & Hs4).
  rewrite (bind_Returns _ _ _ _ _ Hval).
  assert (Hstep4 : step s3 s4 [VALIDATION] 0 [] [] 1).
  { subst s4. unfold step. cbn. rewrite !app_nil_r. repeat split; lia. }
  pose proof (step_trans _ _ _ _ _ _ _ _ _ _ _ _ _ Hstep1 Hstep2) as H12.
  pose proof (step_trans _ _ _ _ _ _ _ _ _ _ _ _ _ H12 Hstep3) as H13.
  pose proof (step_trans _ _ _ _ _ _ _ _ _ _ _ _ _ H13 Hstep4) as H14.
  cbn [Z.add app Nat.add] in H14.
  pose proof (should_refine_step v s s4 _ _ _ _ H14) as Hguard.
  unfold bind at 1, get at 1. rewrite Hguard.
  assert (Href : exists s5,
             (if should_refine v s then _refine_analyses analyses v else ret analyses) s4
             = Returns analyses s5
             /\ step s4 s5 (if should_refine v s then [REFINEMENT] else [])
                  (if should_refine v s then 1 else 0) [] [] 0).
  { destruct (should_refine v s).
    - apply refine_returns.
    - exists s4. split; [reflexivity|].
      apply step_of_same_orchestrator; [apply same_orchestrator_refl | lia]. }
  destruct Href as (s5 & Href & Hstep5).
  rewrite (bind_Returns _ _ _ _ _ Href).
  destruct (synthesize_returns analyses v s5)
    as (d & s6 & Hsyn & Hscore & Hband & Hconf & Hlim & Hs6).
  rewrite (bind_Returns _ _ _ _ _ Hsyn).
  assert (Hstep6 : step s5 s6 [SYNTHESIS] 0 [] [] 1).
  { subst s6. unfold step. cbn. rewrite !app_nil_r. repeat split; lia. }
  pose proof (step_trans _ _ _ _ _ _ _ _ _ _ _ _ _ H14 Hstep5) as H15.
  pose proof (step_trans _ _ _ _ _ _ _ _ _ _ _ _ _ H15 Hstep6) as H16.
  exists d, s6, pre, analyses, v, dec.
  split; [reflexivity|]. split; [exact Hpre|].
  split.
  { eapply step_weaken; [exact H16| | | | |].
    - repeat first [rewrite <- app_assoc | progress cbn [app]]. reflexivity.
    - destruct (should_refine v s); reflexivity.
    - reflexivity.
    - rewrite !app_nil_r. reflexivity.
    - lia. }
  split; [exact Hdec|]. split; [exact Hdims|]. split; [exact Hmed|].
  split; [exact Hvc|].
  split.
  { rewrite Hvn. destruct H13 as (_ & _ & _ & Ht & _). rewrite Ht. reflexivity. }
  split; [exact Hscore|]. split; [exact Hband|]. split; [exact Hconf|].
  rewrite Hlim. subst s6. reflexivity.
Qed.

(** The binary64 mean of four midpoints, none above MEDIUM: all 81 cases
    are evaluated. *)
Lemma mean_at_most_medium (c1 c2 c3 c4 : ConfidenceLevel) :
  (level_rank c1 <= level_rank MEDIUM)%nat ->
  (level_rank c2 <= level_rank MEDIUM)%nat ->
  (level_rank c3 <= level_rank MEDIUM)%nat ->
  (level_rank c4 <= level_rank MEDIUM)%nat ->
  (Float64.div
     (py_sum [confidences c1; confidences c2; confidences c3; confidences c4])
     (inject_Z 4)
   <= 0.60)%Q.
Proof.
  intros H1 H2 H3 H4.
  destruct c1; try (exfalso; simpl in H1; lia);
  destruct c2; try (exfalso; simpl in H2; lia);
  destruct c3; try (exfalso; simpl in H3; lia);
  destruct c4; try (exfalso; simpl in H4; lia);
  vm_compute; discriminate.
Qed.

Lemma four_analyses (analyses : list DimensionAnalysis) :
  map dimension analyses = ["technology"; "cost"; "ethical"; "market"] ->
  exists a1 a2 a3 a4, analyses = [a1; a2; a3; a4].
Proof.
  intros H.
  destruct analyses as [|a1 [|a2 [|a3 [|a4 [|a5 l]]]]]; try discriminate H.
  exists a1, a2, a3, a4. reflexivity.
Qed.

Lemma threshold_075 (t : System) :
  (confidence_threshold t == 0.75)%Q ->
  Float64.round (confidence_threshold t) = (3 # 4)%Q.
Proof. intros H. rewrite (round_comp _ _ H). vm_compute. reflexivity. Qed.

Lemma validate_at_most_medium (analyses : list DimensionAnalysis) (t : System) :
  map dimension analyses = ["technology"; "cost"; "ethical"; "market"] ->
  Forall at_most_medium analyses ->
  exists v t',
    _validate_analyses analyses t = Returns v t'
    /\ (v_confidence v <= 0.60)%Q
    /\ ((confidence_threshold t == 0.75)%Q -> needs_refinement v = true).
Proof.
  intros Hdims Hall.
  destruct (four_analyses analyses Hdims) as (a1 & a2 & a3 & a4 & ->).
  destruct (validate_returns [a1; a2; a3; a4] t ltac:(discriminate))
    as (v & t' & Hrun & Hc & Hn & _).
  apply Forall_cons in Hall as (H1 & Hall).
  apply Forall_cons in Hall as (H2 & Hall).
  apply Forall_cons in Hall as (H3 & Hall).
  apply Forall_cons in Hall as (H4 & _).
  pose proof (mean_at_most_medium _ _ _ _ H1 H2 H3 H4) as Hle.
  cbn [map length] in Hc. change (Z.of_nat 4) with 4%Z in Hc.
  rewrite <- Hc in Hle.
  exists v, t'. split; [exact Hrun|]. split; [exact Hle|].
  intros Hthr. rewrite Hn, (threshold_075 t Hthr). apply Qltb_lt. lra.
Qed.

Lemma run_phases_counts (pre : list AnalysisPhase) (b : bool) :
  pre = [] \/ pre = [INFORMATION_GATHERING] ->
  let phases := [PLANNING] ++ pre ++ [PARALLEL_ANALYSIS; VALIDATION]
                ++ (if b then [REFINEMENT] else []) ++ [SYNTHESIS] in
  refinement_passes phases = (if b then 1 else 0)%nat
  /\ validation_passes phases = 1%nat
  /\ List.last phases PLANNING = SYNTHESIS.
Proof. intros [-> | ->]; destruct b; repeat split. Qed.

(** C4.  Every run returns, ends in SYNTHESIS, raises the iteration counter
    by exactly the number of refinement passes, makes no refinement pass
    when the counter has reached [max_iterations], and makes at most
    [max_iterations - iteration] passes; from a counter of 0 with
    [max_iterations = 3], at most 3. *)
Theorem C4_iteration_cap (request : ProjectAnalysisRequest) (s : System) :
  exists d s' phases,
    OrchestratorAgent.analyze_project request s = Returns d s'
    /\ history s' = history s ++ phases
    /\ iteration s' = (iteration s + Z.of_nat (refinement_passes phases))%Z
    /\ max_iterations s' = max_iterations s
    /\ ((max_iterations s <= iteration s)%Z -> refinement_passes phases = 0%nat)
    /\ (refinement_passes phases <= Z.to_nat (max_iterations s - iteration s))%nat
    /\ (iteration s = 0%Z -> max_iterations s = 3%Z -> (refinement_passes phases <= 3)%nat)
    /\ List.last phases PLANNING = SYNTHESIS
    /\ current_phase s' = SYNTHESIS.
Proof.
  destruct (analyze_project_run request s)
    as (d & s' & pre & analyses & v & dec & Hrun & Hpre & Hstep & _).
  destruct Hstep as (Hh & Hp & Hi & _ & Hm & _).
  destruct (run_phases_counts pre (should_refine v s) Hpre) as (Hr & _ & Hlast).
  eexists d, s', _. split; [exact Hrun|]. split; [exact Hh|].
  rewrite Hr.
  assert (Hguard : should_refine v s = true -> (iteration s < max_iterations s)%Z).
  { unfold should_refine. intros H. apply andb_true_iff in H as [_ H].
    apply Z.ltb_lt, H. }
  split; [rewrite Hi; destruct (should_refine v s); reflexivity|].
  split; [exact Hm|].
  split; [destruct (should_refine v s); [intros; specialize (Hguard eq_refl); lia | reflexivity]|].
  split; [destruct (should_refine v s); [specialize (Hguard eq_refl)|]; lia|].
  split; [destruct (should_refine v s); lia|].
  split; [exact Hlast|].
  rewrite Hp.
  destruct Hpre as [-> | ->]; destruct (should_refine v s); reflexivity.
Qed.

(** C7, as amended.  [analyze_project] does not inspect the description:
    for every request and state it returns a decision, having entered
    PLANNING, recorded one planning decision and made at least fifteen
    reasoning calls. *)
Theorem C7_no_description_check (request : ProjectAnalysisRequest) (s : System) :
  exists d s' dec rest,
    OrchestratorAgent.analyze_project request s = Returns d s'
    /\ history s' = history s ++ PLANNING :: rest
    /\ decisions s' = decisions s ++ [dec]
    /\ od_phase dec = PLANNING
    /\ (llm_calls s + 15 <= llm_calls s')%nat.
Proof.
  destruct (analyze_project_run request s)
    as (d & s' & pre & analyses & v & dec & Hrun & Hpre & Hstep & Hdec & _).
  destruct Hstep as (Hh & _ & _ & _ & _ & Hd & _ & Hl).
  eexists d, s', dec, _. split; [exact Hrun|].
  split; [exact Hh|]. split; [exact Hd|]. split; [exact Hdec|]. exact Hl.
Qed.

(** C10.  In every run the four analyses produced by parallel analysis have
    confidence at most MEDIUM; validating them gives an aggregate confidence
    of at most 0.60, hence [needs_refinement] against the 0.75 threshold;
    refinement then runs whenever the counter allows, and the decision's
    confidence is MEDIUM, never HIGH. *)
Theorem C10_confidence_never_high
    (request : ProjectAnalysisRequest) (s : System)
    (Hthr : (confidence_threshold s == 0.75)%Q) :
  exists d s' analyses,
    OrchestratorAgent.analyze_project request s = Returns d s'
    /\ all_analyses s' = all_analyses s ++ analyses
    /\ Forall at_most_medium analyses
    /\ (forall t : System,
          (confidence_threshold t == 0.75)%Q ->
          exists v t',
            _validate_analyses analyses t = Returns v t'
            /\ (v_confidence v <= 0.60)%Q
            /\ needs_refinement v = true)
    /\ ((iteration s < max_iterations s)%Z -> iteration s' = (iteration s + 1)%Z)
    /\ fd_confidence d = MEDIUM
    /\ fd_confidence d <> HIGH.
Proof.
  destruct (analyze_project_run request s)
    as (d & s' & pre & analyses & v & dec & Hrun & Hpre & Hstep & _ & Hdims & Hmed
        & Hvc & _ & _ & _ & Hconf & _).
  destruct Hstep as (_ & _ & Hi & _ & _ & _ & Ha & _).
  destruct (validate_at_most_medium analyses s Hdims Hmed)
    as (v0 & s0 & Hv0 & Hle0 & _).
  assert (Hle : (v_confidence v <= 0.60)%Q).
  { destruct (validate_returns analyses s ltac:(intros ->; discriminate Hdims))
      as (v1 & s1 & Hv1 & Hc1 & _).
    rewrite Hv0 in Hv1. injection Hv1 as <- _. rewrite Hvc, <- Hc1. exact Hle0. }
  assert (Hfd : fd_confidence d = MEDIUM).
  { rewrite Hconf, Qltb_false; [reflexivity | lra]. }
  exists d, s', analyses. split; [exact Hrun|]. split; [exact Ha|]. split; [exact Hmed|].
  split.
  { intros t Ht.
    destruct (validate_at_most_medium analyses t Hdims Hmed) as (v' & t' & Hv & Hv1 & Hv2).
    exists v', t'. split; [exact Hv|]. split; [exact Hv1|]. apply Hv2, Ht. }
  split.
  { intros Hlt. rewrite Hi.
    assert (should_refine v s = true) as ->; [|reflexivity].
    unfold should_refine. apply andb_true_iff. split.
    - rewrite (threshold_075 s Hthr). apply Qltb_lt. lra.
    - apply Z.ltb_lt, Hlt. }
  split; [exact Hfd|]. rewrite Hfd. discriminate.
Qed.

(** ** Concrete runs *)

(** C1 (defect in the code).  The orchestrator is documented to iterate
    until confident, with REFINEMENT returning to VALIDATION.
    [analyze_project] guards one refinement pass with [if]: every run
    validates once, refines at most once and goes from REFINEMENT straight
    to SYNTHESIS.  On a fresh orchestrator with the mock provider the run
    reaches SYNTHESIS with aggregate confidence 0.6 (the binary64 number
    nearest to 0.60) < 0.75 and counter 1 < 3, without a second
    VALIDATION. *)
Theorem C1_single_pass_no_revalidation :
  (forall (request : ProjectAnalysisRequest) (s : System),
      exists d s' pre rp,
        analyze_project request s = Returns d s'
        /\ (pre = [] \/ pre = [INFORMATION_GATHERING])
        /\ (rp = [] \/ rp = [REFINEMENT])
        /\ history s'
           = history s ++ [PLANNING] ++ pre ++ [PARALLEL_ANALYSIS; VALIDATION]
               ++ rp ++ [SYNTHESIS])
  /\ (exists d s',
        analyze_project (Mock.request "An AI triage assistant for clinics.") Mock.orchestrator
        = Returns d s'
        /\ history s'
           = [PLANNING; PLANNING; PARALLEL_ANALYSIS; VALIDATION; REFINEMENT; SYNTHESIS]
        /\ map confidence (all_analyses s') = [MEDIUM; MEDIUM; MEDIUM; MEDIUM]
        /\ Float64.div
             (py_sum (map (fun a => confidences (confidence a)) (all_analyses s')))
             (inject_Z 4)
           = Float64.round 0.60
        /\ (Float64.round 0.60 < 0.75)%Q
        /\ confidence_threshold s' = 0.75%Q
        /\ iteration s' = 1%Z
        /\ max_iterations s' = 3%Z).
Proof.
  split.
  - intros request s.
    destruct (analyze_project_run request s)
      as (d & s' & pre & analyses & v & dec & Hrun & Hpre & Hstep & _).
    destruct Hstep as (Hh & _).
    exists d, s', pre, (if should_refine v s then [REFINEMENT] else []).
    split; [exact Hrun|]. split; [exact Hpre|].
    split; [destruct (should_refine v s); auto|]. exact Hh.
  - eexists _, _. split; [vm_compute; reflexivity|].
    vm_compute. repeat split.
Qed.

(** C6, counterexample: the exception raised on the empty list is not a
    ConfigurationError. *)
Lemma C6_counterexample :
  exists e : exn,
    _validate_analyses [] Mock.orchestrator = Raises e
    /\ exn_name e <> "ConfigurationError".
Proof. exists ZeroDivisionError. split; [reflexivity | discriminate]. Qed.

(** C7, counterexample: with an empty and with a whitespace-only description
    the run does not raise; it plans, calls the provider and returns. *)
Lemma C7_counterexample :
  (exists d s',
      analyze_project (Mock.request "") Mock.orchestrator = Returns d s'
      /\ llm_calls s' = 15%nat /\ length (decisions s') = 1%nat)
  /\ (exists d s',
        analyze_project (Mock.request "   ") Mock.orchestrator = Returns d s'
        /\ llm_calls s' = 15%nat /\ length (decisions s') = 1%nat)
  /\ ~ (exists e : exn, analyze_project (Mock.request "") Mock.orchestrator = Raises e)
  /\ ~ (exists e : exn, analyze_project (Mock.request "   ") Mock.orchestrator = Raises e).
Proof.
  split; [vm_compute; eexists _, _; repeat split|].
  split; [vm_compute; eexists _, _; repeat split|].
  split; intros [e H]; vm_compute in H; discriminate H.
Qed.

(** C9, counterexample: five records from two distinct sources and an
    analysis text that contains the word clear give 0.725 (the average of
    0.30 and 0.75, plus 0.2), not the clamped average 0.525. *)
Lemma C9_counterexample :
  ~ (ResearchAgent._assess_research_confidence (Mock.search 0 "market trends") Mock.reply
     == Spec.research_confidence (Mock.search 0 "market trends") Mock.reply)%Q.
Proof. vm_compute. discriminate. Qed.

(** The two values of that counterexample. *)
Example research_confidence_example :
  ResearchAgent.num_sources (Mock.search 0 "market trends") = 2%nat
  /\ (ResearchAgent.source_confidence (Mock.search 0 "market trends") == 0.30)%Q
  /\ (ResearchAgent.analysis_confidence Mock.reply == 0.75)%Q
  /\ (ResearchAgent._assess_research_confidence (Mock.search 0 "market trends") Mock.reply
      == 0.725)%Q
  /\ (Spec.research_confidence (Mock.search 0 "market trends") Mock.reply == 0.525)%Q.
Proof. vm_compute. repeat split. Qed.





(** C6 at a one-element list. *)
Lemma C6_witness :
  exists v s',
    _validate_analyses [ Mock.analysis "technology" 80 MEDIUM ] Mock.orchestrator
    = Returns v s'.
Proof.
  apply (proj2 C6_validation_fails_only_on_empty
           [ Mock.analysis "technology" 80 MEDIUM ] Mock.orchestrator).
  discriminate.
Defined.

(** C8 at a request that names one query twice. *)
Lemma C8_witness :
  exists findings s' new f,
    ResearchAgent.analyze
      {| queries := ["market size"; "market size"]; information_type := "comprehensive";
         context := "Demo"; priority := "high" |}
      Mock.orchestrator
    = Returns findings s'
    /\ searches s' = searches Mock.orchestrator ++ new
    /\ calls_for "market size" new = 1%nat
    /\ findings !! 0%nat = Some f /\ findings !! 1%nat = Some f
    /\ findings_cache s' !! "market size" = Some f
    /\ (forall again : ResearchRequest,
          queries again = ["market size"] ->
          ResearchAgent.analyze again s' = Returns [f] s').
Proof.
  apply (C8_same_query_retrieved_once
           {| queries := ["market size"; "market size"];
              information_type := "comprehensive";
              context := "Demo"; priority := "high" |}
           Mock.orchestrator "market size" 0 1).
  - lia.
  - reflexivity.
  - reflexivity.
  - reflexivity.
Defined.

(** C9 at a query answered with five records. *)
Lemma C9_witness :
  exists f s',
    ResearchAgent._research_query "market size" "comprehensive" "Demo" Mock.orchestrator
    = Returns f s'
    /\ (0.1 <= rf_confidence f <= 0.95)%Q.
Proof.
  destruct (C9_research_confidence "market size" "comprehensive" "Demo" Mock.orchestrator)
    as (f & s' & Hrun & Hres & _ & _ & Hne & _).
  exists f, s'. split; [exact Hrun|].
  apply Hne. rewrite Hres. discriminate.
Defined.

(** C4 at the fresh orchestrator. *)
Lemma C4_witness :
  exists d s' phases,
    analyze_project (Mock.request "An AI triage assistant for clinics.") Mock.orchestrator
    = Returns d s'
    /\ history s' = history Mock.orchestrator ++ phases
    /\ (refinement_passes phases <= 3)%nat.
Proof.
  destruct (C4_iteration_cap (Mock.request "An AI triage assistant for clinics.")
              Mock.orchestrator)
    as (d & s' & phases & Hrun & Hh & _ & _ & _ & _ & Hcap & _).
  exists d, s', phases. split; [exact Hrun|]. split; [exact Hh|].
  apply Hcap; reflexivity.
Defined.

(** C10 at the fresh orchestrator. *)
Lemma C10_witness :
  exists d s',
    analyze_project (Mock.request "An AI triage assistant for clinics.") Mock.orchestrator
    = Returns d s'
    /\ fd_confidence d = MEDIUM.
Proof.
  destruct (C10_confidence_never_high
              (Mock.request "An AI triage assistant for clinics.") Mock.orchestrator)
    as (d & s' & analyses & Hrun & _ & _ & _ & _ & Hfd & _).
  - reflexivity.
  - exists d, s'. split; [exact Hrun | exact Hfd].
Defined.
